(** * Aisha backend: the WhatsApp gateway client, the phone normalizer and the
    FastAPI request handlers of [main.py], as a shallow embedding.

    Python strings are sequences of Unicode code points, modelled as [list Z].
    The character classes [str.isdigit], [str.isdecimal] and [str.isspace] are
    the tables of CPython 3.11 (Unicode 14.0), written as inclusive ranges. *)

From Stdlib Require Import ZArith List String Ascii Bool Lia.
Import ListNotations.
Open Scope Z_scope.

(** ** Python strings *)
Module PyStr.

Definition pystr := list Z.

(** An ASCII literal as a Python string. *)
Definition lit (s : string) : pystr :=
  map (fun a => Z.of_nat (nat_of_ascii a)) (list_ascii_of_string s).

Fixpoint in_ranges (rs : list (Z * Z)) (c : Z) : bool :=
  match rs with
  | [] => false
  | (lo, hi) :: rs' => ((lo <=? c) && (c <=? hi)) || in_ranges rs' c
  end.

(** Code points for which CPython's [str.isdigit] is true. *)
Definition isdigit_ranges : list (Z * Z) :=
  [(48, 57); (178, 179); (185, 185); (1632, 1641); (1776, 1785); (1984, 1993);
   (2406, 2415); (2534, 2543); (2662, 2671); (2790, 2799); (2918, 2927);
   (3046, 3055); (3174, 3183); (3302, 3311); (3430, 3439); (3558, 3567);
   (3664, 3673); (3792, 3801); (3872, 3881); (4160, 4169); (4240, 4249);
   (4969, 4977); (6112, 6121); (6160, 6169); (6470, 6479); (6608, 6618);
   (6784, 6793); (6800, 6809); (6992, 7001); (7088, 7097); (7232, 7241);
   (7248, 7257); (8304, 8304); (8308, 8313); (8320, 8329); (9312, 9320);
   (9332, 9340); (9352, 9360); (9450, 9450); (9461, 9469); (9471, 9471);
   (10102, 10110); (10112, 10120); (10122, 10130); (42528, 42537);
   (43216, 43225); (43264, 43273); (43472, 43481); (43504, 43513);
   (43600, 43609); (44016, 44025); (65296, 65305); (66720, 66729);
   (68160, 68163); (68912, 68921); (69216, 69224); (69714, 69722);
   (69734, 69743); (69872, 69881); (69942, 69951); (70096, 70105);
   (70384, 70393); (70736, 70745); (70864, 70873); (71248, 71257);
   (71360, 71369); (71472, 71481); (71904, 71913); (72016, 72025);
   (72784, 72793); (73040, 73049); (73120, 73129); (92768, 92777);
   (92864, 92873); (93008, 93017); (120782, 120831); (123200, 123209);
   (123632, 123641); (125264, 125273); (127232, 127242); (130032, 130041)].

(** Code points for which CPython's [str.isdecimal] is true: the decimal
    digits (general category Nd). *)
Definition isdecimal_ranges : list (Z * Z) :=
  [(48, 57); (1632, 1641); (1776, 1785); (1984, 1993); (2406, 2415);
   (2534, 2543); (2662, 2671); (2790, 2799); (2918, 2927); (3046, 3055);
   (3174, 3183); (3302, 3311); (3430, 3439); (3558, 3567); (3664, 3673);
   (3792, 3801); (3872, 3881); (4160, 4169); (4240, 4249); (6112, 6121);
   (6160, 6169); (6470, 6479); (6608, 6617); (6784, 6793); (6800, 6809);
   (6992, 7001); (7088, 7097); (7232, 7241); (7248, 7257); (42528, 42537);
   (43216, 43225); (43264, 43273); (43472, 43481); (43504, 43513);
   (43600, 43609); (44016, 44025); (65296, 65305); (66720, 66729);
   (68912, 68921); (69734, 69743); (69872, 69881); (69942, 69951);
   (70096, 70105); (70384, 70393); (70736, 70745); (70864, 70873);
   (71248, 71257); (71360, 71369); (71472, 71481); (71904, 71913);
   (72016, 72025); (72784, 72793); (73040, 73049); (73120, 73129);
   (92768, 92777); (92864, 92873); (93008, 93017); (120782, 120831);
   (123200, 123209); (123632, 123641); (125264, 125273); (130032, 130041)].

(** Code points for which CPython's [str.isspace] is true (what [strip()]
    removes). *)
Definition isspace_ranges : list (Z * Z) :=
  [(9, 13); (28, 32); (133, 133); (160, 160); (5760, 5760); (8192, 8202);
   (8232, 8233); (8239, 8239); (8287, 8287); (12288, 12288)].

Definition isdigit (c : Z) : bool := in_ranges isdigit_ranges c.
Definition isdecimal (c : Z) : bool := in_ranges isdecimal_ranges c.
Definition isspace (c : Z) : bool := in_ranges isspace_ranges c.

Fixpoint lstrip_by (p : Z -> bool) (s : pystr) : pystr :=
  match s with
  | [] => []
  | c :: s' => if p c then lstrip_by p s' else s
  end.

(** [s.strip()] *)
Definition strip (s : pystr) : pystr :=
  rev (lstrip_by isspace (rev (lstrip_by isspace s))).

(** [s.startswith(p)] *)
Fixpoint startswith (s p : pystr) : bool :=
  match p, s with
  | [], _ => true
  | c :: p', d :: s' => (c =? d) && startswith s' p'
  | _ :: _, [] => false
  end.

(** [s == t] *)
Fixpoint pystr_eqb (s t : pystr) : bool :=
  match s, t with
  | [], [] => true
  | c :: s', d :: t' => (c =? d) && pystr_eqb s' t'
  | _, _ => false
  end.

(** [s[1:]] *)
Definition slice_from_1 (s : pystr) : pystr := skipn 1 s.

End PyStr.

Import PyStr.

(** ** [WhatsAppService._normalize_phone] (whatsapp_service.py, lines 186-204) *)
Module Normalize.

Definition plus : Z := 43.

Definition _normalize_phone (phone_number : pystr) : pystr :=
  let phone_number := strip phone_number in
  let phone_number :=
    filter (fun c => isdigit c || (c =? plus)) phone_number in
  if startswith phone_number (lit "0") then
    lit "+254" ++ slice_from_1 phone_number
  else if startswith phone_number (lit "254") then
    lit "+" ++ phone_number
  else if negb (startswith phone_number (lit "+")) then
    lit "+" ++ phone_number
  else phone_number.


End Normalize.

Import Normalize.

Example normalize_ex1 :
  _normalize_phone (lit "  0712-345-678 ") = lit "+254712345678".
Proof. vm_compute. reflexivity. Qed.

Example normalize_ex2 : _normalize_phone (lit "254712345678") = lit "+254712345678".
Proof. vm_compute. reflexivity. Qed.

Example normalize_ex3 : _normalize_phone [178] = [43; 178].
Proof. vm_compute. reflexivity. Qed.

(** ** Python values, exceptions and the effects of a request *)
Module Py.

(** A JSON value as Python holds it after [json.loads]: a dict is an
    association list in insertion order. *)
#[warnings="-register-all"] Inductive json :=
| JNull
| JBool (b : bool)
| JNum (n : Z)
| JStr (s : pystr)
| JArr (l : list json)
| JObj (kv : list (pystr * json)).

Fixpoint assoc (k : pystr) (kv : list (pystr * json)) : option json :=
  match kv with
  | [] => None
  | (k', v) :: kv' => if pystr_eqb k k' then Some v else assoc k kv'
  end.

Definition jopt (o : option pystr) : json :=
  match o with Some s => JStr s | None => JNull end.

(** Python exceptions (all of them subclasses of [Exception]). *)
Inductive pyexc :=
| HTTPException (status_code : Z) (detail : pystr)
| PyError (cls : pystr) (msg : pystr).

Inductive res (A : Type) :=
| Ok (a : A)
| Exc (e : pyexc).
Arguments Ok {A} a.
Arguments Exc {A} e.

Fixpoint digits_rev (fuel : nat) (n : Z) : pystr :=
  match fuel with
  | O => []
  | S fuel' =>
      (48 + n mod 10) :: (if n <? 10 then [] else digits_rev fuel' (n / 10))
  end.

(** [str(n)] for [n >= 0]. *)
Definition show_Z (n : Z) : pystr := rev (digits_rev 20 n).

(** [str(e)]; starlette's [HTTPException.__str__] is
    [f"{self.status_code}: {self.detail}"]. *)
Definition exc_str (e : pyexc) : pystr :=
  match e with
  | HTTPException c d => show_Z c ++ lit ": " ++ d
  | PyError _ m => m
  end.

(** [str(n)] for any integer. *)
Definition show_int (n : Z) : pystr :=
  if n <? 0 then lit "-" ++ show_Z (- n) else show_Z n.

Definition hex_digit (d : Z) : Z := if d <? 10 then 48 + d else 87 + d.

(** One character of [repr(s)] with quote [q]: backslash escapes for the quote,
    the backslash, tab, newline and carriage return, [\xhh] for the other
    ASCII control characters; other characters are copied (CPython also
    escapes the non-printable non-ASCII ones, which never occur in the keys
    of this program). *)
Definition repr_char (q c : Z) : pystr :=
  if (c =? q) || (c =? 92) then [92; c]
  else if c =? 9 then [92; 116]
  else if c =? 10 then [92; 110]
  else if c =? 13 then [92; 114]
  else if (c <? 32) || (c =? 127) then
    [92; 120; hex_digit (c / 16); hex_digit (c mod 16)]
  else [c].

(** [repr(s)] of a string: single quotes, or double quotes when [s] contains
    a single quote and no double quote. *)
Definition py_repr_str (s : pystr) : pystr :=
  let q := if existsb (fun c => c =? 39) s && negb (existsb (fun c => c =? 34) s)
           then 34 else 39 in
  [q] ++ flat_map (repr_char q) s ++ [q].

(** [type(v).__name__] of a JSON value as [json.loads] builds it. *)
Definition type_name (v : json) : pystr :=
  match v with
  | JNull => lit "NoneType"
  | JBool _ => lit "bool"
  | JNum _ => lit "int"
  | JStr _ => lit "str"
  | JArr _ => lit "list"
  | JObj _ => lit "dict"
  end.

(** The exceptions below carry [str(e)]: [str(KeyError(k))] is [repr(k)]. *)
Definition KeyError (k : pystr) : pyexc := PyError (lit "KeyError") (py_repr_str k).
Definition KeyErrorInt (i : Z) : pyexc := PyError (lit "KeyError") (show_int i).
Definition IndexError (m : string) : pyexc := PyError (lit "IndexError") (lit m).
Definition TypeError (m : pystr) : pyexc := PyError (lit "TypeError") m.
Definition AttributeError (m : pystr) : pyexc :=
  PyError (lit "AttributeError") m.

Inductive key := KStr (s : pystr) | KInt (i : Z).

(** Python's [seq[i]] index resolution, negative indices counted from the end. *)
Definition py_index {A} (l : list A) (i : Z) : option A :=
  let n := Z.of_nat (List.length l) in
  if (0 <=? i) && (i <? n) then nth_error l (Z.to_nat i)
  else if (- n <=? i) && (i <? 0) then nth_error l (Z.to_nat (n + i))
  else None.

(** [v[k]] on a JSON value. *)
Definition getitem (v : json) (k : key) : res json :=
  match v, k with
  | JObj kv, KStr s =>
      match assoc s kv with Some x => Ok x | None => Exc (KeyError s) end
  | JObj _, KInt i => Exc (KeyErrorInt i)
  | JArr l, KInt i =>
      match py_index l i with
      | Some x => Ok x
      | None => Exc (IndexError "list index out of range")
      end
  | JStr s, KInt i =>
      match py_index s i with
      | Some c => Ok (JStr [c])
      | None => Exc (IndexError "string index out of range")
      end
  | JArr _, KStr _ => Exc (TypeError (lit "list indices must be integers or slices, not str"))
  | JStr _, KStr _ => Exc (TypeError (lit "string indices must be integers"))
  | _, _ => Exc (TypeError (lit "'" ++ type_name v ++ lit "' object is not subscriptable"))
  end.

(** [v.get(k, default)] on a JSON value: only dicts have [get]. *)
Definition dict_get (v : json) (k : pystr) (default : json) : res json :=
  match v with
  | JObj kv => match assoc k kv with Some x => Ok x | None => Ok default end
  | _ => Exc (AttributeError (lit "'" ++ type_name v ++ lit "' object has no attribute 'get'"))
  end.

Definition res_bind {A B} (r : res A) (f : A -> res B) : res B :=
  match r with Ok a => f a | Exc e => Exc e end.

(** The result envelope [{"success": ..., "data": ..., "error": ...}]; an
    absent key is [None]. *)
Record envelope := mk_envelope {
  success : bool;
  data : option json;
  error : option pystr
}.

Definition failure (msg : pystr) : envelope :=
  {| success := false; data := None; error := Some msg |}.

(** An outbound HTTP request as handed to [call_api]. *)
Record api_request := mk_request {
  req_url : pystr;
  req_method : pystr;
  req_headers : list (pystr * pystr);
  req_json : json;
  req_timeout : option Z
}.

(** Rows of the tables [waiting_list] and [whatsapp_messages] (models.py). *)
Record wl_row := mk_wl_row {
  wl_id : Z;
  wl_username : pystr;
  wl_phone_number : pystr
}.

Record msg_row := mk_msg_row {
  m_phone_number : pystr;
  m_message_content : pystr;
  m_message_type : pystr;
  m_status : pystr;
  m_external_message_id : json
}.

(** Observable events: entries into the gateway client and outbound calls. *)
Inductive event :=
| ServiceCall (name : string)
| ApiCall (r : api_request).

Record world := mk_world {
  waiting_list : list wl_row;
  whatsapp_messages : list msg_row;
  trace : list event
}.

(** State and Python exceptions: the state survives an exception. *)
Definition M (A : Type) := world -> res A * world.

Definition ret {A} (a : A) : M A := fun w => (Ok a, w).
Definition bind {A B} (m : M A) (f : A -> M B) : M B :=
  fun w => match m w with
           | (Ok a, w') => f a w'
           | (Exc e, w') => (Exc e, w')
           end.
Definition raise {A} (e : pyexc) : M A := fun w => (Exc e, w).
Definition lift {A} (r : res A) : M A := fun w => (r, w).

(** [try: m except Exception as e: h(e)] *)
Definition try_except {A} (m : M A) (h : pyexc -> M A) : M A :=
  fun w => match m w with
           | (Ok a, w') => (Ok a, w')
           | (Exc e, w') => h e w'
           end.

Definition emit (ev : event) : M unit :=
  fun w => (Ok tt, {| waiting_list := waiting_list w;
                      whatsapp_messages := whatsapp_messages w;
                      trace := trace w ++ [ev] |}).

Notation "x <- m ;; k" := (bind m (fun x => k))
  (at level 61, m at next level, right associativity).
Notation "m ;;; k" := (bind m (fun _ => k))
  (at level 61, right associativity).

(** Configuration read from the environment (whatsapp_service.py lines 12-14,
    main.py line 17); [os.getenv] yields [None] when the variable is unset. *)
Record config := mk_config {
  NGUMZO_API_KEY : option pystr;
  NGUMZO_API_URL : pystr;
  NGUMZO_SENDER_ID : option pystr;
  GEMINI_API_KEY : option pystr
}.

(** Python truthiness of an optional string. *)
Definition truthy_str (o : option pystr) : bool :=
  match o with Some (_ :: _) => true | _ => false end.

(** [f"{x}"] of an optional string. *)
Definition fmt_opt (o : option pystr) : pystr :=
  match o with Some s => s | None => lit "None" end.

End Py.

Import Py.

(** ** [service.api_service.call_api] *)
Module ApiService.
Section ApiService.

(** Modelled from the spec: [call_api] (service/api_service.py, not part of the
    sources) issues one HTTP request and returns a result envelope (section
    4.1). The network's answer is an arbitrary function [api_response] of the
    request; it is even allowed to raise, which the spec says it never does. *)
Variable api_response : api_request -> res envelope.

Definition call_api (r : api_request) : M envelope :=
  emit (ApiCall r) ;;; lift (api_response r).

End ApiService.
End ApiService.

Import ApiService.

(** ** [WhatsAppService] (whatsapp_service.py) *)
Module WhatsAppService.
Section WhatsAppService.

Variable cfg : config.
Variable api_response : api_request -> res envelope.

Definition json_headers : list (pystr * pystr) :=
  [(lit "Content-Type", lit "application/json")].

Definition send_message_url : pystr := NGUMZO_API_URL cfg ++ lit "/send-message".

Definition exception_envelope (e : pyexc) : envelope :=
  failure (lit "Exception: " ++ exc_str e).

(** Lines 23-89. *)
Definition send_message (phone_number message message_type : pystr)
  : M envelope :=
  emit (ServiceCall "send_message") ;;;
  try_except
    (let phone_number := _normalize_phone phone_number in
     if negb (truthy_str (NGUMZO_API_KEY cfg)) then
       ret (failure (lit "NGUMZO_API_KEY not found in environment variables"))
     else
       let payload :=
         JObj [(lit "api_key", jopt (NGUMZO_API_KEY cfg));
               (lit "sender_id", jopt (NGUMZO_SENDER_ID cfg));
               (lit "to", JStr phone_number);
               (lit "message", JStr message);
               (lit "message_type", JStr (lit "text"))] in
       call_api api_response
         {| req_url := send_message_url; req_method := lit "POST";
            req_headers := json_headers; req_json := payload;
            req_timeout := Some 30 |})
    (fun e => ret (exception_envelope e)).

(** [parameters or []] *)
Definition or_empty (parameters : option (list json)) : list json :=
  match parameters with
  | Some ((_ :: _) as l) => l
  | _ => []
  end.

(** Lines 91-136. *)
Definition send_template_message (phone_number template_name : pystr)
  (parameters : option (list json)) : M envelope :=
  emit (ServiceCall "send_template_message") ;;;
  try_except
    (let phone_number := _normalize_phone phone_number in
     let payload :=
       JObj [(lit "api_key", jopt (NGUMZO_API_KEY cfg));
             (lit "sender_id", jopt (NGUMZO_SENDER_ID cfg));
             (lit "to", JStr phone_number);
             (lit "message_type", JStr (lit "template"));
             (lit "template_name", JStr template_name);
             (lit "parameters", JArr (or_empty parameters))] in
     call_api api_response
       {| req_url := send_message_url; req_method := lit "POST";
          req_headers := json_headers; req_json := payload;
          req_timeout := Some 30 |})
    (fun e => ret (exception_envelope e)).

(** Lines 138-184. *)
Definition send_media_message (phone_number media_url media_type : pystr)
  (caption : option pystr) : M envelope :=
  emit (ServiceCall "send_media_message") ;;;
  try_except
    (let phone_number := _normalize_phone phone_number in
     let payload :=
       JObj [(lit "api_key", jopt (NGUMZO_API_KEY cfg));
             (lit "sender_id", jopt (NGUMZO_SENDER_ID cfg));
             (lit "to", JStr phone_number);
             (lit "message_type", JStr media_type);
             (lit "media_url", JStr media_url);
             (lit "caption", jopt caption)] in
     call_api api_response
       {| req_url := send_message_url; req_method := lit "POST";
          req_headers := json_headers; req_json := payload;
          req_timeout := Some 30 |})
    (fun e => ret (exception_envelope e)).

End WhatsAppService.
End WhatsAppService.

(** ** The FastAPI handlers of main.py *)
Module Main.
Section Main.

Variable cfg : config.
Variable api_response : api_request -> res envelope.

(** Request bodies, after pydantic validation. *)
Record WaitingListCreate := mk_WaitingListCreate {
  username : pystr;
  phone_number : pystr
}.

Record WhatsAppTextMessage := mk_WhatsAppTextMessage {
  text_phone_number : pystr;
  text_message : pystr
}.

Record WhatsAppTemplateMessage := mk_WhatsAppTemplateMessage {
  tmpl_phone_number : pystr;
  tmpl_template_name : pystr;
  tmpl_parameters : option (list json)
}.

Record WhatsAppMediaMessage := mk_WhatsAppMediaMessage {
  media_phone_number : pystr;
  media_media_url : pystr;
  media_media_type : pystr;
  media_caption : option pystr
}.

(** [db.query(WaitingList).filter(WaitingList.phone_number == p).first()] *)
Definition query_waiting_list_first (p : pystr) : M (option wl_row) :=
  fun w => (Ok (find (fun r => pystr_eqb (wl_phone_number r) p) (waiting_list w)), w).

Definition next_id (rows : list wl_row) : Z :=
  1 + fold_right (fun r m => Z.max (wl_id r) m) 0 rows.

(** [db.add(db_item); db.commit(); db.refresh(db_item)]: the row gets the next
    integer primary key. *)
Definition add_waiting_list (name p : pystr) : M wl_row :=
  fun w =>
    let r := mk_wl_row (next_id (waiting_list w)) name p in
    (Ok r, {| waiting_list := waiting_list w ++ [r];
              whatsapp_messages := whatsapp_messages w;
              trace := trace w |}).

(** The database error raised by [db.commit()] when a value cannot be bound to
    a [String] column; its text depends on the database driver, chosen in
    [database.py] (not under src/), and is not modelled. *)
Definition bind_error : pyexc := PyError (lit "sqlalchemy.exc.StatementError") [].

(** [db.add(db_message); db.commit()]: [external_message_id] is a [String]
    column, to which a dict or a list cannot be bound, so the commit raises
    and no row is stored. *)
Definition add_whatsapp_message (m : msg_row) : M unit :=
  fun w =>
    match m_external_message_id m with
    | JObj _ | JArr _ => (Exc bind_error, w)
    | _ =>
        (Ok tt, {| waiting_list := waiting_list w;
                   whatsapp_messages := whatsapp_messages w ++ [m];
                   trace := trace w |})
    end.

(** [f"Hello {item.username}, 👋\n\nThanks for joining ... launch. 🚀"] *)
Definition welcome_message (name : pystr) : pystr :=
  lit "Hello " ++ name ++ lit ", " ++ [128075] ++ [10; 10] ++
  lit "Thanks for joining our waiting list! We'll notify you soon when we launch. "
  ++ [128640].

(** Lines 78-109. *)
Definition create_waiting_list_item (item : WaitingListCreate) : M json :=
  try_except
    (existing <- query_waiting_list_first (phone_number item) ;;
     match existing with
     | Some _ =>
         raise (HTTPException 400 (lit "Phone number already in waiting list"))
     | None =>
         db_item <- add_waiting_list (username item) (phone_number item) ;;
         let message := welcome_message (username item) in
         whatsapp_result <-
           WhatsAppService.send_message cfg api_response (phone_number item)
             message (lit "text") ;;
         ret (JObj [(lit "message", JStr (lit "Added to waiting list"));
                    (lit "id", JNum (wl_id db_item));
                    (lit "whatsapp_sent", JBool (success whatsapp_result))])
     end)
    (fun e => raise (HTTPException 422 (exc_str e))).

(** [result.get("data", {}).get("messages", [{}])[0].get("id")] *)
Definition extract_message_id (result : envelope) : res json :=
  let d := match data result with Some d => d | None => JObj [] end in
  res_bind (dict_get d (lit "messages") (JArr [JObj []])) (fun ms =>
  res_bind (getitem ms (KInt 0)) (fun m0 =>
  dict_get m0 (lit "id") JNull)).

(** The common tail of the three send handlers: store a row on success. *)
Definition store_if_success (result : envelope) (p content mtype : pystr)
  : M envelope :=
  if success result then
    ext <- lift (extract_message_id result) ;;
    add_whatsapp_message
      {| m_phone_number := p; m_message_content := content;
         m_message_type := mtype; m_status := lit "sent";
         m_external_message_id := ext |} ;;;
    ret result
  else ret result.

(** Lines 113-137. *)
Definition send_whatsapp_text (request : WhatsAppTextMessage) : M envelope :=
  try_except
    (result <- WhatsAppService.send_message cfg api_response
                 (text_phone_number request) (text_message request) (lit "text") ;;
     store_if_success result (text_phone_number request) (text_message request)
       (lit "text"))
    (fun e => raise (HTTPException 500 (exc_str e))).

(** Lines 139-162. *)
Definition send_whatsapp_template (request : WhatsAppTemplateMessage)
  : M envelope :=
  try_except
    (result <- WhatsAppService.send_template_message cfg api_response
                 (tmpl_phone_number request) (tmpl_template_name request)
                 (tmpl_parameters request) ;;
     store_if_success result (tmpl_phone_number request)
       (lit "Template: " ++ tmpl_template_name request) (lit "template"))
    (fun e => raise (HTTPException 500 (exc_str e))).

(** Lines 164-188. *)
Definition send_whatsapp_media (request : WhatsAppMediaMessage) : M envelope :=
  try_except
    (result <- WhatsAppService.send_media_message cfg api_response
                 (media_phone_number request) (media_media_url request)
                 (media_media_type request) (media_caption request) ;;
     store_if_success result (media_phone_number request)
       (media_media_url request) (media_media_type request))
    (fun e => raise (HTTPException 500 (exc_str e))).

Definition GEMINI_API_URL : pystr :=
  lit "https://generativelanguage.googleapis.com/v1beta/models/gemini-2.5-flash:generateContent".

Definition gemini_payload (prompt : pystr) : json :=
  JObj [(lit "contents",
         JArr [JObj [(lit "parts", JArr [JObj [(lit "text", JStr prompt)]])]])].

(** [data["candidates"][0]["content"]["parts"][0]["text"]] *)
Definition extract_text (d : json) : res json :=
  res_bind (getitem d (KStr (lit "candidates"))) (fun c =>
  res_bind (getitem c (KInt 0)) (fun c0 =>
  res_bind (getitem c0 (KStr (lit "content"))) (fun ct =>
  res_bind (getitem ct (KStr (lit "parts"))) (fun ps =>
  res_bind (getitem ps (KInt 0)) (fun p0 =>
  getitem p0 (KStr (lit "text"))))))).

Definition gemini_request (prompt : pystr) : api_request :=
  {| req_url := GEMINI_API_URL ++ lit "?key=" ++ fmt_opt (GEMINI_API_KEY cfg);
     req_method := lit "POST"; req_headers := WhatsAppService.json_headers;
     req_json := gemini_payload prompt; req_timeout := None |}.

(** Lines 204-226; no [try]: every exception reaches FastAPI. *)
Definition get_gemini_response (prompt : pystr) : M json :=
  result <- call_api api_response (gemini_request prompt) ;;
  if negb (success result) then
    raise (HTTPException 500
             (match error result with Some e => e | None => lit "Unknown error" end))
  else
    d <- lift (match data result with
               | Some d => Ok d
               | None => Exc (KeyError (lit "data"))
               end) ;;
    text <- lift (extract_text d) ;;
    ret (JObj [(lit "response", text)]).

End Main.
End Main.

(** * Properties *)

(** ** The phone normalizer *)
Module NormalizeFacts.

Definition keep (c : Z) : bool := isdigit c || (c =? plus).

(** The prefix rules of [_normalize_phone], after filtering. *)
Definition prefix_rules (s : pystr) : pystr :=
  if startswith s (lit "0") then lit "+254" ++ slice_from_1 s
  else if startswith s (lit "254") then lit "+" ++ s
  else if negb (startswith s (lit "+")) then lit "+" ++ s
  else s.

Lemma normalize_unfold (x : pystr) :
  _normalize_phone x = prefix_rules (filter keep (strip x)).
Proof. reflexivity. Qed.

Lemma in_ranges_spec (rs : list (Z * Z)) (c : Z) :
  in_ranges rs c = true -> exists lo hi, In (lo, hi) rs /\ lo <= c <= hi.
Proof.
  induction rs as [|[lo hi] rs IH]; simpl; [discriminate|].
  intros H. apply orb_true_iff in H as [H|H].
  - apply andb_true_iff in H as [H1 H2].
    apply Z.leb_le in H1. apply Z.leb_le in H2.
    exists lo, hi. split; [left; reflexivity | lia].
  - destruct (IH H) as (lo' & hi' & Hin & Hc).
    exists lo', hi'. split; [right; exact Hin | exact Hc].
Qed.

Definition zrange (lo hi : Z) : list Z :=
  map (fun n => lo + Z.of_nat n) (seq 0 (Z.to_nat (hi - lo + 1))).

Lemma in_zrange (lo hi c : Z) : lo <= c <= hi -> In c (zrange lo hi).
Proof.
  intros Hc. unfold zrange. apply in_map_iff.
  exists (Z.to_nat (c - lo)). split; [lia|].
  apply in_seq. lia.
Qed.

Lemma space_ranges_have_no_digit :
  forallb (fun '(lo, hi) => forallb (fun c => negb (isdigit c)) (zrange lo hi))
    isspace_ranges = true.
Proof. vm_compute. reflexivity. Qed.

Lemma digit_not_space (c : Z) : isdigit c = true -> isspace c = false.
Proof.
  intros Hd. destruct (isspace c) eqn:E; [|reflexivity].
  apply in_ranges_spec in E as (lo & hi & Hin & Hc).
  pose proof space_ranges_have_no_digit as T.
  rewrite forallb_forall in T. specialize (T _ Hin). simpl in T.
  rewrite forallb_forall in T. specialize (T c (in_zrange lo hi c Hc)).
  rewrite Hd in T. discriminate.
Qed.

Lemma keep_not_space (c : Z) : keep c = true -> isspace c = false.
Proof.
  unfold keep. intros H. apply orb_true_iff in H as [H|H].
  - apply digit_not_space, H.
  - apply Z.eqb_eq in H. subst c. reflexivity.
Qed.

Lemma lstrip_by_noop (p : Z -> bool) (s : pystr) :
  (forall c, In c s -> p c = false) -> lstrip_by p s = s.
Proof.
  destruct s as [|c s]; simpl; [reflexivity|].
  intros H. rewrite (H c (or_introl eq_refl)). reflexivity.
Qed.

Lemma lstrip_by_incl (p : Z -> bool) (s : pystr) (c : Z) :
  In c (lstrip_by p s) -> In c s.
Proof.
  induction s as [|d s IH]; simpl; [tauto|].
  destruct (p d); simpl; auto.
Qed.

Lemma strip_noop (s : pystr) :
  (forall c, In c s -> isspace c = false) -> strip s = s.
Proof.
  intros H. unfold strip.
  rewrite (lstrip_by_noop _ s H).
  rewrite lstrip_by_noop; [apply rev_involutive|].
  intros c Hc. apply H. apply in_rev. exact Hc.
Qed.

Lemma strip_incl (s : pystr) (c : Z) : In c (strip s) -> In c s.
Proof.
  unfold strip. intros H.
  apply in_rev in H. apply lstrip_by_incl in H.
  apply in_rev in H. apply lstrip_by_incl in H. exact H.
Qed.

Lemma filter_noop (f : Z -> bool) (s : pystr) :
  (forall c, In c s -> f c = true) -> filter f s = s.
Proof.
  induction s as [|c s IH]; simpl; [reflexivity|].
  intros H. rewrite (H c (or_introl eq_refl)).
  rewrite IH; [reflexivity|]. intros d Hd. apply H. right. exact Hd.
Qed.

(** Every result is a ['+'] followed by kept characters. *)
Lemma normalize_shape (x : pystr) :
  exists t, _normalize_phone x = plus :: t /\ forall c, In c t -> keep c = true.
Proof.
  rewrite normalize_unfold.
  set (s := filter keep (strip x)).
  assert (Hs : forall c, In c s -> keep c = true).
  { intros c Hc. apply filter_In in Hc. apply Hc. }
  unfold prefix_rules.
  destruct (startswith s (lit "0")) eqn:E0.
  - exists ([50; 53; 52] ++ slice_from_1 s). split; [reflexivity|].
    intros c Hc. apply in_app_or in Hc as [Hc|Hc].
    + simpl in Hc. repeat destruct Hc as [<-|Hc]; try reflexivity. contradiction.
    + apply Hs. unfold slice_from_1 in Hc.
      destruct s as [|d s']; simpl in Hc; [contradiction|right; exact Hc].
  - destruct (startswith s (lit "254")) eqn:E254.
    + exists s. split; [reflexivity | exact Hs].
    + destruct (startswith s (lit "+")) eqn:Ep; simpl.
      * change (lit "+") with [plus] in Ep.
        destruct s as [|d t]; [discriminate|].
        cbn [startswith] in Ep.
        assert (E : startswith t [] = true) by (destruct t; reflexivity).
        rewrite E, andb_true_r in Ep. apply Z.eqb_eq in Ep. subst d.
        exists t. split; [reflexivity|].
        intros c Hc. apply Hs. right. exact Hc.
      * exists s. split; [reflexivity | exact Hs].
Qed.

End NormalizeFacts.

Import NormalizeFacts.

(** C7: the phone normalizer is idempotent: for every input string [x],
    [normalize(normalize(x)) == normalize(x)]. *)
Theorem C7_normalize_idempotent (x : pystr) :
  _normalize_phone (_normalize_phone x) = _normalize_phone x.
Proof.
  destruct (normalize_shape x) as (t & Ht & Hkeep). rewrite Ht.
  assert (Hall : forall c, In c (plus :: t) -> keep c = true).
  { intros c [<-|Hc]; [reflexivity | exact (Hkeep c Hc)]. }
  rewrite normalize_unfold.
  rewrite strip_noop by (intros c Hc; apply keep_not_space, Hall, Hc).
  rewrite filter_noop by exact Hall.
  assert (E : startswith t [] = true) by (destruct t; reflexivity).
  unfold prefix_rules. cbn -[startswith]. cbn [startswith]. rewrite E. reflexivity.
Qed.

(** ** Non-decimal digits *)
Module DigitFacts.










End DigitFacts.

Import DigitFacts.




(** ** The gateway client *)
Module ServiceFacts.

Import WhatsAppService.

(** [payload.get(k)] *)
Definition json_field (v : json) (k : pystr) : option json :=
  match v with JObj kv => assoc k kv | _ => None end.

(** What [except Exception as e] makes of the delegated call's outcome. *)
Definition caught (r : res envelope) : envelope :=
  match r with Ok env => env | Exc e => exception_envelope e end.

Ltac run_service :=
  unfold send_message, send_template_message, send_media_message,
    call_api, try_except, bind, emit, lift, ret; cbn beta iota.

(** The requests the three operations hand to [call_api]. *)
Definition gateway_request (cfg : config) (payload : json) : api_request :=
  {| req_url := send_message_url cfg; req_method := lit "POST";
     req_headers := json_headers; req_json := payload; req_timeout := Some 30 |}.

Definition text_payload (cfg : config) (p msg : pystr) : json :=
  JObj [(lit "api_key", jopt (NGUMZO_API_KEY cfg));
        (lit "sender_id", jopt (NGUMZO_SENDER_ID cfg));
        (lit "to", JStr (_normalize_phone p));
        (lit "message", JStr msg);
        (lit "message_type", JStr (lit "text"))].

Definition template_payload (cfg : config) (p tn : pystr)
  (params : option (list json)) : json :=
  JObj [(lit "api_key", jopt (NGUMZO_API_KEY cfg));
        (lit "sender_id", jopt (NGUMZO_SENDER_ID cfg));
        (lit "to", JStr (_normalize_phone p));
        (lit "message_type", JStr (lit "template"));
        (lit "template_name", JStr tn);
        (lit "parameters", JArr (or_empty params))].

Definition media_payload (cfg : config) (p mu mty : pystr)
  (caption : option pystr) : json :=
  JObj [(lit "api_key", jopt (NGUMZO_API_KEY cfg));
        (lit "sender_id", jopt (NGUMZO_SENDER_ID cfg));
        (lit "to", JStr (_normalize_phone p));
        (lit "message_type", JStr mty);
        (lit "media_url", JStr mu);
        (lit "caption", jopt caption)].

Definition with_trace (w : world) (evs : list event) : world :=
  {| waiting_list := waiting_list w; whatsapp_messages := whatsapp_messages w;
     trace := trace w ++ evs |}.

Ltac finish_run api :=
  destruct (api _); unfold with_trace; cbn; rewrite <- ?app_assoc;
  reflexivity.

Lemma send_message_run cfg api p msg mt w :
  send_message cfg api p msg mt w =
  if truthy_str (NGUMZO_API_KEY cfg) then
    (Ok (caught (api (gateway_request cfg (text_payload cfg p msg)))),
     with_trace w [ServiceCall "send_message";
                   ApiCall (gateway_request cfg (text_payload cfg p msg))])
  else
    (Ok (failure (lit "NGUMZO_API_KEY not found in environment variables")),
     with_trace w [ServiceCall "send_message"]).
Proof.
  unfold caught, gateway_request, text_payload. run_service.
  destruct (truthy_str (NGUMZO_API_KEY cfg)); cbn beta iota; [finish_run api|].
  reflexivity.
Qed.

Lemma send_template_message_run cfg api p tn params w :
  send_template_message cfg api p tn params w =
  (Ok (caught (api (gateway_request cfg (template_payload cfg p tn params)))),
   with_trace w [ServiceCall "send_template_message";
                 ApiCall (gateway_request cfg (template_payload cfg p tn params))]).
Proof.
  unfold caught, gateway_request, template_payload. run_service. finish_run api.
Qed.

Lemma send_media_message_run cfg api p mu mty caption w :
  send_media_message cfg api p mu mty caption w =
  (Ok (caught (api (gateway_request cfg (media_payload cfg p mu mty caption)))),
   with_trace w [ServiceCall "send_media_message";
                 ApiCall (gateway_request cfg (media_payload cfg p mu mty caption))]).
Proof.
  unfold caught, gateway_request, media_payload. run_service. finish_run api.
Qed.

End ServiceFacts.

Import ServiceFacts.


(** C1 does not hold for all three operations: with [NGUMZO_API_KEY] unset,
    [send_message] short-circuits with a failure naming the key and makes no
    call, but [send_template_message] and [send_media_message] have no such
    check and hand a payload with ["api_key": None] to [call_api]. *)
Theorem C1_missing_key_only_checked_by_send_message
  (url : pystr) (sender gemini : option pystr)
  (api : api_request -> res envelope)
  (p msg mt tn mu mty : pystr) (params : option (list json))
  (caption : option pystr) (w : world) :
  let cfg := mk_config None url sender gemini in
  (fst (WhatsAppService.send_message cfg api p msg mt w) =
     Ok (failure (lit "NGUMZO_API_KEY not found in environment variables")) /\
   trace (snd (WhatsAppService.send_message cfg api p msg mt w)) =
     trace w ++ [ServiceCall "send_message"]) /\
  (exists r,
     trace (snd (WhatsAppService.send_template_message cfg api p tn params w)) =
       trace w ++ [ServiceCall "send_template_message"; ApiCall r] /\
     json_field (req_json r) (lit "api_key") = Some JNull /\
     fst (WhatsAppService.send_template_message cfg api p tn params w) =
       Ok (caught (api r))) /\
  (exists r,
     trace (snd (WhatsAppService.send_media_message cfg api p mu mty caption w)) =
       trace w ++ [ServiceCall "send_media_message"; ApiCall r] /\
     json_field (req_json r) (lit "api_key") = Some JNull /\
     fst (WhatsAppService.send_media_message cfg api p mu mty caption w) =
       Ok (caught (api r))).
Proof.
  intros cfg.
  rewrite send_message_run, send_template_message_run, send_media_message_run.
  split; [split; reflexivity|split].
  - eexists. repeat split; reflexivity.
  - eexists. repeat split; reflexivity.
Qed.

(** C3: none of the three gateway operations raises: each returns an envelope,
    which is the delegated call's envelope, or [{"success": False, "error":
    "Exception: " + str(e)}] when the delegated call raised [e] (or, for
    [send_message], the missing-key failure). *)
Theorem C3_send_operations_never_raise
  (cfg : config) (api : api_request -> res envelope)
  (p msg mt tn mu mty : pystr) (params : option (list json))
  (caption : option pystr) (w : world) :
  (fst (WhatsAppService.send_message cfg api p msg mt w) =
     Ok (failure (lit "NGUMZO_API_KEY not found in environment variables")) \/
   exists r, fst (WhatsAppService.send_message cfg api p msg mt w) =
               Ok (caught (api r))) /\
  (exists r, fst (WhatsAppService.send_template_message cfg api p tn params w) =
               Ok (caught (api r))) /\
  (exists r, fst (WhatsAppService.send_media_message cfg api p mu mty caption w) =
               Ok (caught (api r))) /\
  (forall e, success (WhatsAppService.exception_envelope e) = false /\
             error (WhatsAppService.exception_envelope e) =
               Some (lit "Exception: " ++ exc_str e)).
Proof.
  rewrite send_message_run, send_template_message_run, send_media_message_run.
  split; [|split; [|split]].
  - destruct (truthy_str (NGUMZO_API_KEY cfg)); [right; eexists|left];
      reflexivity.
  - eexists. reflexivity.
  - eexists. reflexivity.
  - intros e. split; reflexivity.
Qed.

(** C8: [send_template_message] always sends a payload with a ["parameters"]
    field: the supplied list, or [[]] when none is supplied. *)
Theorem C8_template_parameters_field
  (cfg : config) (api : api_request -> res envelope)
  (p tn : pystr) (params : option (list json)) (w : world) :
  exists r,
    trace (snd (WhatsAppService.send_template_message cfg api p tn params w)) =
      trace w ++ [ServiceCall "send_template_message"; ApiCall r] /\
    json_field (req_json r) (lit "parameters") =
      Some (JArr (match params with Some l => l | None => [] end)).
Proof.
  rewrite send_template_message_run. eexists. split; [reflexivity|].
  destruct params as [[|x l]|]; reflexivity.
Qed.

(** C10: [send_message] ignores its [message_type] argument: two calls that
    differ only there behave identically, and every payload it sends has
    ["message_type": "text"]. *)
Theorem C10_send_message_ignores_message_type
  (cfg : config) (api : api_request -> res envelope)
  (p msg mt1 mt2 : pystr) (w : world) :
  WhatsAppService.send_message cfg api p msg mt1 w =
    WhatsAppService.send_message cfg api p msg mt2 w /\
  exists evs,
    trace (snd (WhatsAppService.send_message cfg api p msg mt1 w)) =
      trace w ++ ServiceCall "send_message" :: evs /\
    Forall (fun ev => match ev with
                      | ApiCall r =>
                          json_field (req_json r) (lit "message_type") =
                            Some (JStr (lit "text"))
                      | ServiceCall _ => False
                      end) evs.
Proof.
  split; [reflexivity|].
  rewrite send_message_run. destruct (truthy_str (NGUMZO_API_KEY cfg)).
  - eexists. split; [reflexivity|]. repeat constructor.
  - exists []. split; [reflexivity | constructor].
Qed.

(** ** The request handlers *)
Module HandlerFacts.

Import Main.

Definition to_opt {A} (r : res A) : option A :=
  match r with Ok a => Some a | Exc _ => None end.

Definition obind {A B} (o : option A) (f : A -> option B) : option B :=
  match o with Some a => f a | None => None end.

Definition arr_first (v : json) : option json :=
  match v with JArr (x :: _) => Some x | _ => None end.

(** The path [candidates[0].content.parts[0].text] through dicts and lists,
    [None] when some step is missing. *)
Definition gemini_path (d : json) : option json :=
  obind (json_field d (lit "candidates")) (fun c =>
  obind (arr_first c) (fun c0 =>
  obind (json_field c0 (lit "content")) (fun ct =>
  obind (json_field ct (lit "parts")) (fun ps =>
  obind (arr_first ps) (fun p0 =>
  json_field p0 (lit "text")))))).

Lemma to_opt_bind {A B} (r : res A) (f : A -> res B) :
  to_opt (res_bind r f) = obind (to_opt r) (fun a => to_opt (f a)).
Proof. destruct r; reflexivity. Qed.

Lemma to_opt_getitem_str (v : json) (k : pystr) :
  to_opt (getitem v (KStr k)) = json_field v k.
Proof. destruct v; try reflexivity. simpl. destruct (assoc k kv); reflexivity. Qed.

Lemma to_opt_getitem_first {B} (v : json) (k : pystr) (f : json -> res B) :
  to_opt (res_bind (getitem v (KInt 0)) (fun x => res_bind (getitem x (KStr k)) f)) =
  obind (obind (arr_first v) (fun x => json_field x k)) (fun y => to_opt (f y)).
Proof.
  destruct v as [| | | s | l |]; try reflexivity.
  - destruct s; reflexivity.
  - destruct l as [|x l]; [reflexivity|]. cbn [getitem py_index].
    simpl. rewrite to_opt_bind, to_opt_getitem_str. reflexivity.
Qed.

Lemma to_opt_getitem_first_last (v : json) (k : pystr) :
  to_opt (res_bind (getitem v (KInt 0)) (fun x => getitem x (KStr k))) =
  obind (arr_first v) (fun x => json_field x k).
Proof.
  destruct v as [| | | s | l |]; try reflexivity.
  - destruct s; reflexivity.
  - destruct l as [|x l]; [reflexivity|]. simpl.
    apply to_opt_getitem_str.
Qed.

(** The extraction line succeeds exactly when the path is there. *)
Lemma extract_text_path (d : json) :
  to_opt (extract_text d) = gemini_path d.
Proof.
  unfold extract_text, gemini_path.
  rewrite to_opt_bind, to_opt_getitem_str.
  destruct (json_field d (lit "candidates")) as [c|]; [simpl|reflexivity].
  rewrite to_opt_getitem_first.
  destruct (arr_first c) as [c0|]; [simpl|reflexivity].
  destruct (json_field c0 (lit "content")) as [ct|]; [simpl|reflexivity].
  rewrite to_opt_bind, to_opt_getitem_str.
  destruct (json_field ct (lit "parts")) as [ps|]; [simpl|reflexivity].
  apply to_opt_getitem_first_last.
Qed.

Lemma get_gemini_response_run cfg api prompt w :
  get_gemini_response cfg api prompt w =
  let w' := with_trace w [ApiCall (gemini_request cfg prompt)] in
  match api (gemini_request cfg prompt) with
  | Exc e => (Exc e, w')
  | Ok result =>
      if negb (success result) then
        (Exc (HTTPException 500 (match error result with
                                 | Some e => e | None => lit "Unknown error" end)), w')
      else
        match data result with
        | None => (Exc (KeyError (lit "data")), w')
        | Some d =>
            match extract_text d with
            | Ok text => (Ok (JObj [(lit "response", text)]), w')
            | Exc e => (Exc e, w')
            end
        end
  end.
Proof.
  unfold get_gemini_response, call_api, bind, emit, lift, raise, ret.
  cbn beta iota zeta.
  destruct (api (gemini_request cfg prompt)) as [result|e]; [|reflexivity].
  destruct (negb (success result)); [reflexivity|].
  destruct (data result) as [d|]; [|reflexivity].
  destruct (extract_text d); reflexivity.
Qed.

(** The duplicate check finds a row whenever one has the same phone string. *)
Lemma pystr_eqb_refl (s : pystr) : pystr_eqb s s = true.
Proof. induction s; simpl; [reflexivity|]. rewrite Z.eqb_refl. exact IHs. Qed.

Lemma create_waiting_list_item_duplicate cfg api item w :
  (exists r, In r (waiting_list w) /\ wl_phone_number r = phone_number item) ->
  create_waiting_list_item cfg api item w =
  (Exc (HTTPException 422
          (exc_str (HTTPException 400
                      (lit "Phone number already in waiting list")))), w).
Proof.
  intros (r & Hin & Hp).
  unfold create_waiting_list_item, try_except, bind, query_waiting_list_first.
  destruct (find (fun r => pystr_eqb (wl_phone_number r) (phone_number item))
              (waiting_list w)) eqn:E.
  - reflexivity.
  - exfalso. apply find_none with (x := r) in E; [|exact Hin].
    rewrite Hp, pystr_eqb_refl in E. discriminate.
Qed.

(** The "only if" half of C5: a failed send stores nothing. *)
Lemma store_if_success_failure result p content mtype w :
  success result = false ->
  store_if_success result p content mtype w = (Ok result, w).
Proof. intros H. unfold store_if_success. rewrite H. reflexivity. Qed.

End HandlerFacts.

Import HandlerFacts.

(** C4: the Gemini handler hands [call_api] exactly the payload
    [{"contents": [{"parts": [{"text": prompt}]}]}]; on a success envelope
    with data [d] it returns [{"response": text}] when
    [d["candidates"][0]["content"]["parts"][0]["text"]] is [text], and raises
    when that path is absent. *)
Theorem C4_gemini_payload_and_extraction
  (cfg : config) (api : api_request -> res envelope) (prompt : pystr)
  (w : world) (d : json) (err : option pystr)
  (Hok : api (Main.gemini_request cfg prompt) = Ok (mk_envelope true (Some d) err)) :
  req_json (Main.gemini_request cfg prompt) =
    JObj [(lit "contents",
           JArr [JObj [(lit "parts", JArr [JObj [(lit "text", JStr prompt)]])]])] /\
  trace (snd (Main.get_gemini_response cfg api prompt w)) =
    trace w ++ [ApiCall (Main.gemini_request cfg prompt)] /\
  (gemini_path d = None ->
     exists e, fst (Main.get_gemini_response cfg api prompt w) = Exc e) /\
  (forall text, gemini_path d = Some text ->
     fst (Main.get_gemini_response cfg api prompt w) =
       Ok (JObj [(lit "response", text)])).
Proof.
  pose proof (extract_text_path d) as Hp.
  rewrite get_gemini_response_run, Hok. cbn zeta. cbn [success data negb].
  split; [reflexivity|].
  destruct (Main.extract_text d) as [t|e]; simpl in Hp.
  - split; [reflexivity|]. split.
    + intros Hn. rewrite Hn in Hp. discriminate.
    + intros text Ht. rewrite Ht in Hp. injection Hp as <-. reflexivity.
  - split; [reflexivity|]. split.
    + intros _. exists e. reflexivity.
    + intros text Ht. rewrite Ht in Hp. discriminate.
Qed.

Definition gemini_witness_data : json :=
  JObj [(lit "candidates",
         JArr [JObj [(lit "content",
                      JObj [(lit "parts", JArr [JObj [(lit "text", JStr (lit "Hi"))]])])]])].

Definition gemini_witness_api (r : api_request) : res envelope :=
  Ok (mk_envelope true (Some gemini_witness_data) None).

Definition gemini_witness_cfg : config :=
  mk_config None (lit "https://ngumzo.com/v1") None (Some (lit "gk")).

Lemma C4_gemini_payload_and_extraction_witness :
  gemini_witness_api (Main.gemini_request gemini_witness_cfg (lit "Hello")) =
    Ok (mk_envelope true (Some gemini_witness_data) None) /\
  fst (Main.get_gemini_response gemini_witness_cfg gemini_witness_api (lit "Hello")
         (mk_world [] [] [])) =
    Ok (JObj [(lit "response", JStr (lit "Hi"))]).
Proof.
  assert (Hok : gemini_witness_api (Main.gemini_request gemini_witness_cfg (lit "Hello")) =
                Ok (mk_envelope true (Some gemini_witness_data) None)) by reflexivity.
  split; [exact Hok|].
  apply (proj2 (proj2 (proj2 (C4_gemini_payload_and_extraction
                                gemini_witness_cfg gemini_witness_api (lit "Hello")
                                (mk_world [] [] []) gemini_witness_data None Hok)))).
  vm_compute. reflexivity.
Defined.

(** The failing input of C5: a provider that accepts the message and answers
    [{"messages": []}]. *)
Definition empty_messages_cfg : config :=
  mk_config (Some (lit "key")) (lit "https://ngumzo.com/v1") (Some (lit "AISHA")) None.

Definition empty_messages_api (r : api_request) : res envelope :=
  Ok (mk_envelope true (Some (JObj [(lit "messages", JArr [])])) None).

(** C5 fails on a success envelope whose data has an empty ["messages"] list:
    the extraction [.get("messages", [{}])[0]] raises [IndexError], so each of
    the three send handlers answers HTTP 500 and stores no message row,
    although the envelope has [success=True]. *)
Theorem C5_success_envelope_without_record :
  let w0 := mk_world [] [] [] in
  let err := Exc (HTTPException 500 (lit "list index out of range")) in
  fst (Main.send_whatsapp_text empty_messages_cfg empty_messages_api
         (Main.mk_WhatsAppTextMessage (lit "0712345678") (lit "Hello")) w0) = err /\
  whatsapp_messages (snd (Main.send_whatsapp_text empty_messages_cfg empty_messages_api
         (Main.mk_WhatsAppTextMessage (lit "0712345678") (lit "Hello")) w0)) = [] /\
  fst (Main.send_whatsapp_template empty_messages_cfg empty_messages_api
         (Main.mk_WhatsAppTemplateMessage (lit "0712345678") (lit "welcome") None) w0) = err /\
  whatsapp_messages (snd (Main.send_whatsapp_template empty_messages_cfg empty_messages_api
         (Main.mk_WhatsAppTemplateMessage (lit "0712345678") (lit "welcome") None) w0)) = [] /\
  fst (Main.send_whatsapp_media empty_messages_cfg empty_messages_api
         (Main.mk_WhatsAppMediaMessage (lit "0712345678") (lit "https://x.org/a.png")
            (lit "image") None) w0) = err /\
  whatsapp_messages (snd (Main.send_whatsapp_media empty_messages_cfg empty_messages_api
         (Main.mk_WhatsAppMediaMessage (lit "0712345678") (lit "https://x.org/a.png")
            (lit "image") None) w0)) = [] /\
  empty_messages_api (gateway_request empty_messages_cfg
                        (text_payload empty_messages_cfg (lit "0712345678") (lit "Hello")))
    = Ok (mk_envelope true (Some (JObj [(lit "messages", JArr [])])) None).
Proof. vm_compute. repeat split. Qed.

(** C6: when the phone number is already in the waiting list, the handler
    raises a client error (4xx), does not call [send_message] (nor
    [call_api]) and inserts no row: the state is unchanged. *)
Theorem C6_duplicate_phone_rejected
  (cfg : config) (api : api_request -> res envelope)
  (item : Main.WaitingListCreate) (w : world)
  (Hdup : exists r, In r (waiting_list w) /\
                    wl_phone_number r = Main.phone_number item) :
  (exists code detail,
     fst (Main.create_waiting_list_item cfg api item w) =
       Exc (HTTPException code detail) /\ 400 <= code < 500) /\
  snd (Main.create_waiting_list_item cfg api item w) = w /\
  waiting_list (snd (Main.create_waiting_list_item cfg api item w)) = waiting_list w /\
  ~ In (ServiceCall "send_message")
      (skipn (List.length (trace w))
             (trace (snd (Main.create_waiting_list_item cfg api item w)))).
Proof.
  rewrite (create_waiting_list_item_duplicate cfg api item w Hdup). simpl.
  split; [eexists; eexists; split; [reflexivity | lia]|].
  split; [reflexivity|]. split; [reflexivity|].
  rewrite skipn_all. simpl. tauto.
Qed.

(** C9: the [HTTPException(400)] raised for a duplicate phone number is caught
    by the handler's own [except Exception] and re-raised as
    [HTTPException(422)] whose detail is [str] of the original exception,
    ["400: Phone number already in waiting list"]. *)
Theorem C9_duplicate_phone_surfaces_as_422
  (cfg : config) (api : api_request -> res envelope)
  (item : Main.WaitingListCreate) (w : world)
  (Hdup : exists r, In r (waiting_list w) /\
                    wl_phone_number r = Main.phone_number item) :
  fst (Main.create_waiting_list_item cfg api item w) =
    Exc (HTTPException 422
           (exc_str (HTTPException 400 (lit "Phone number already in waiting list")))) /\
  exc_str (HTTPException 400 (lit "Phone number already in waiting list")) =
    lit "400: Phone number already in waiting list".
Proof.
  rewrite (create_waiting_list_item_duplicate cfg api item w Hdup).
  split; [reflexivity | vm_compute; reflexivity].
Qed.

Definition duplicate_world : world :=
  mk_world [mk_wl_row 1 (lit "Amina") (lit "0712345678")] [] [].

Definition duplicate_item : Main.WaitingListCreate :=
  Main.mk_WaitingListCreate (lit "Amina Otieno") (lit "0712345678").

Lemma duplicate_present :
  exists r, In r (waiting_list duplicate_world) /\
            wl_phone_number r = Main.phone_number duplicate_item.
Proof. exists (mk_wl_row 1 (lit "Amina") (lit "0712345678")). split; [left|]; reflexivity. Qed.

Lemma C6_duplicate_phone_rejected_witness :
  (exists r, In r (waiting_list duplicate_world) /\
             wl_phone_number r = Main.phone_number duplicate_item) /\
  snd (Main.create_waiting_list_item empty_messages_cfg empty_messages_api
         duplicate_item duplicate_world) = duplicate_world.
Proof.
  split; [exists (mk_wl_row 1 (lit "Amina") (lit "0712345678")); split; [left|]; reflexivity|].
  exact (proj1 (proj2 (C6_duplicate_phone_rejected empty_messages_cfg empty_messages_api
                         duplicate_item duplicate_world duplicate_present))).
Defined.

Lemma C9_duplicate_phone_surfaces_as_422_witness :
  (exists r, In r (waiting_list duplicate_world) /\
             wl_phone_number r = Main.phone_number duplicate_item) /\
  fst (Main.create_waiting_list_item empty_messages_cfg empty_messages_api
         duplicate_item duplicate_world) =
    Exc (HTTPException 422
           (exc_str (HTTPException 400 (lit "Phone number already in waiting list")))).
Proof.
  split; [exists (mk_wl_row 1 (lit "Amina") (lit "0712345678")); split; [left|]; reflexivity|].
  exact (proj1 (C9_duplicate_phone_surfaces_as_422 empty_messages_cfg empty_messages_api
                  duplicate_item duplicate_world duplicate_present)).
Defined.

(** ** The pydantic validators of [WaitingListCreate] (main.py, lines 28-44) *)
Module Validation.

(** [$] without MULTILINE: the end of the string, or just before a final
    newline. *)
Definition end_anchor (r : pystr) : bool :=
  match r with [] => true | [c] => c =? 10 | _ => false end.

(** [re.match(r'^(?:254|\+254|0)\d{9}$', v)]; [\d] on a [str] pattern is a
    Unicode decimal digit. The three alternatives start with different
    characters, so backtracking never picks a second one. *)
Definition phone_pattern_matches (v : pystr) : bool :=
  let after_prefix :=
    if startswith v (lit "254") then Some (skipn 3 v)
    else if startswith v (lit "+254") then Some (skipn 4 v)
    else if startswith v (lit "0") then Some (skipn 1 v)
    else None in
  match after_prefix with
  | None => false
  | Some r =>
      Nat.eqb (List.length (firstn 9 r)) 9 && forallb isdecimal (firstn 9 r) &&
      end_anchor (skipn 9 r)
  end.

Definition validate_phone (v : pystr) : res pystr :=
  if phone_pattern_matches v then Ok v
  else Exc (PyError (lit "ValueError")
              (lit "Invalid Kenyan phone number format: 0712345678 or +254712345678")).

(** The class [[a-zA-Z\s-]]; [\s] on a [str] pattern is [str.isspace]. *)
Definition username_char (c : Z) : bool :=
  ((65 <=? c) && (c <=? 90)) || ((97 <=? c) && (c <=? 122)) || isspace c ||
  (c =? 45).

(** [re.match(r'^[a-zA-Z\s-]{2,50}$', v)]: some count [k] in 2..50 of class
    characters, then the end anchor. *)
Definition username_pattern_matches (v : pystr) : bool :=
  existsb (fun k => Nat.leb k (List.length v) &&
                    forallb username_char (firstn k v) &&
                    end_anchor (skipn k v))
          (seq 2 49).

Definition validate_username (v : pystr) : res pystr :=
  if username_pattern_matches v then Ok v
  else Exc (PyError (lit "ValueError")
              (lit "Username must contain only letters, spaces, or hyphens (2-50 characters)")).

End Validation.

Import Validation.

Example phone_pattern_ex1 : phone_pattern_matches (lit "0712345678") = true.
Proof. reflexivity. Qed.
Example phone_pattern_ex2 : phone_pattern_matches (lit "+254712345678") = true.
Proof. reflexivity. Qed.
Example phone_pattern_ex3 : phone_pattern_matches (lit "071234567") = false.
Proof. reflexivity. Qed.
Example phone_pattern_ex4 : phone_pattern_matches (lit "0712345678" ++ [10]) = true.
Proof. reflexivity. Qed.
Example username_ex1 : username_pattern_matches (lit "Amina Otieno") = true.
Proof. vm_compute. reflexivity. Qed.
Example username_ex2 : username_pattern_matches (lit "A") = false.
Proof. vm_compute. reflexivity. Qed.

(** ** Further properties: helpers *)
Module ExtraFacts.

Lemma pystr_eqb_eq (s t : pystr) : pystr_eqb s t = true -> s = t.
Proof.
  revert t. induction s as [|c s IH]; intros [|d t]; simpl; try discriminate.
  - reflexivity.
  - intros H. apply andb_true_iff in H as [H1 H2].
    apply Z.eqb_eq in H1. rewrite H1, (IH t H2). reflexivity.
Qed.

Lemma decimal_ranges_are_digits :
  forallb (fun '(lo, hi) => forallb isdigit (zrange lo hi)) isdecimal_ranges = true.
Proof. vm_compute. reflexivity. Qed.

Lemma decimal_is_digit (c : Z) : isdecimal c = true -> isdigit c = true.
Proof.
  intros Hd. apply in_ranges_spec in Hd as (lo & hi & Hin & Hc).
  pose proof decimal_ranges_are_digits as T.
  rewrite forallb_forall in T. specialize (T _ Hin). simpl in T.
  rewrite forallb_forall in T. exact (T c (in_zrange lo hi c Hc)).
Qed.

Lemma startswith_app (s p : pystr) :
  startswith s p = true -> s = p ++ skipn (List.length p) s.
Proof.
  revert s. induction p as [|c p IH]; intros [|d s]; simpl; try discriminate.
  - reflexivity.
  - reflexivity.
  - intros H. apply andb_true_iff in H as [H1 H2].
    apply Z.eqb_eq in H1. subst d. f_equal. apply IH, H2.
Qed.

(** [strip] removes an optional final newline from text without whitespace. *)
Lemma strip_anchor (s t : pystr) :
  (forall c, In c s -> isspace c = false) -> end_anchor t = true ->
  strip (s ++ t) = s.
Proof.
  intros Hs Ht.
  destruct t as [|n [|x t]]; simpl in Ht; try discriminate.
  - rewrite app_nil_r. apply strip_noop, Hs.
  - apply Z.eqb_eq in Ht. subst n. unfold strip.
    destruct s as [|c s']; [reflexivity|].
    assert (E : lstrip_by isspace ((c :: s') ++ [10]) = (c :: s') ++ [10]).
    { simpl. rewrite (Hs c (or_introl eq_refl)). reflexivity. }
    rewrite E, rev_app_distr. simpl.
    rewrite lstrip_by_noop.
    + change (rev s' ++ [c]) with (rev (c :: s')). apply rev_involutive.
    + intros x Hx. apply Hs. apply in_app_or in Hx as [Hx|[<-|[]]].
      * right. apply in_rev in Hx. exact Hx.
      * left. reflexivity.
Qed.

Lemma firstn_skipn_anchor (r : pystr) :
  Nat.eqb (List.length (firstn 9 r)) 9 && forallb isdecimal (firstn 9 r) &&
  end_anchor (skipn 9 r) = true ->
  exists d t, r = d ++ t /\ List.length d = 9%nat /\
              (forall c, In c d -> isdecimal c = true) /\ end_anchor t = true.
Proof.
  intros H. apply andb_true_iff in H as [H H3]. apply andb_true_iff in H as [H1 H2].
  exists (firstn 9 r), (skipn 9 r). split; [symmetry; apply firstn_skipn|].
  split; [apply Nat.eqb_eq, H1|]. split; [|exact H3].
  rewrite forallb_forall in H2. exact H2.
Qed.

(** Normalizing [p ++ d ++ t] for a validated prefix [p], nine decimal digits
    [d] and an end anchor [t]. *)
Lemma normalize_validated_shape (p d t : pystr) :
  In p [lit "254"; lit "+254"; lit "0"] ->
  (forall c, In c d -> isdecimal c = true) -> end_anchor t = true ->
  _normalize_phone ((p ++ d) ++ t) = lit "+254" ++ d.
Proof.
  intros Hp Hd Ht.
  assert (Hk : forall c, In c (p ++ d) -> keep c = true).
  { intros c Hc. apply in_app_or in Hc as [Hc|Hc].
    - simpl in Hp. repeat destruct Hp as [<-|Hp]; try contradiction;
        simpl in Hc; repeat destruct Hc as [<-|Hc]; try reflexivity; contradiction.
    - unfold keep. rewrite (decimal_is_digit c (Hd c Hc)). reflexivity. }
  rewrite normalize_unfold, strip_anchor.
  - rewrite filter_noop by exact Hk.
    assert (E : startswith d [] = true) by (destruct d; reflexivity).
    simpl in Hp. repeat destruct Hp as [<-|Hp]; try contradiction;
      unfold prefix_rules; simpl; rewrite ?E; reflexivity.
  - intros c Hc. apply keep_not_space, Hk, Hc.
  - exact Ht.
Qed.

(** Every phone number the validator accepts normalizes to ["+254"] followed
    by its nine digits. *)
Lemma validated_phone_normalizes (v : pystr) :
  phone_pattern_matches v = true ->
  exists p d t, In p [lit "254"; lit "+254"; lit "0"] /\ v = p ++ d ++ t /\
    end_anchor t = true /\ List.length d = 9%nat /\
    (forall c, In c d -> isdecimal c = true) /\
    _normalize_phone v = lit "+254" ++ d.
Proof.
  unfold phone_pattern_matches.
  assert (Hcase : forall p n, startswith v p = true -> n = List.length p ->
            In p [lit "254"; lit "+254"; lit "0"] ->
            Nat.eqb (List.length (firstn 9 (skipn n v))) 9 &&
            forallb isdecimal (firstn 9 (skipn n v)) &&
            end_anchor (skipn 9 (skipn n v)) = true ->
            exists p d t, In p [lit "254"; lit "+254"; lit "0"] /\ v = p ++ d ++ t /\
              end_anchor t = true /\ List.length d = 9%nat /\
              (forall c, In c d -> isdecimal c = true) /\
              _normalize_phone v = lit "+254" ++ d).
  { intros p n E -> Hp H.
    apply startswith_app in E.
    destruct (firstn_skipn_anchor _ H) as (d & t & Hr & Hl & Hd & Ht).
    exists p, d, t. rewrite Hr in E.
    split; [exact Hp|]. split; [exact E|]. split; [exact Ht|].
    split; [exact Hl|]. split; [exact Hd|].
    rewrite E, app_assoc. apply normalize_validated_shape; assumption. }
  destruct (startswith v (lit "254")) eqn:E1;
  [|destruct (startswith v (lit "+254")) eqn:E2;
    [|destruct (startswith v (lit "0")) eqn:E3; [|discriminate]]];
  cbn beta iota; intros H; (eapply Hcase; [eassumption | reflexivity | simpl; tauto | exact H]).
Qed.

(** What the username pattern accepts: 2 to 50 class characters, or 51 when
    the last one is a newline (allowed by [$]). *)
Lemma username_accepted_shape (v : pystr) :
  username_pattern_matches v = true ->
  (2 <= List.length v <= 51)%nat /\ forallb username_char v = true /\
  (List.length v = 51%nat -> last v 0 = 10).
Proof.
  unfold username_pattern_matches. intros H.
  apply existsb_exists in H as (k & Hk & H).
  apply in_seq in Hk.
  apply andb_true_iff in H as [H H3]. apply andb_true_iff in H as [H1 H2].
  apply Nat.leb_le in H1.
  pose proof (firstn_skipn k v) as Hv.
  assert (Hlen : List.length (firstn k v) = k) by (apply firstn_length_le; exact H1).
  destruct (skipn k v) as [|c [|x t]] eqn:Es; simpl in H3; try discriminate.
  - rewrite app_nil_r in Hv. rewrite Hv in Hlen, H2.
    split; [lia|]. split; [exact H2|]. lia.
  - apply Z.eqb_eq in H3. subst c.
    rewrite <- Hv. rewrite length_app, Hlen. simpl.
    split; [lia|]. split.
    + rewrite forallb_app, H2. reflexivity.
    + intros _. apply last_last.
Qed.

Lemma find_none_of {A} (f : A -> bool) (l : list A) :
  (forall x, In x l -> f x = false) -> find f l = None.
Proof.
  induction l as [|x l IH]; simpl; intros H; [reflexivity|].
  rewrite (H x (or_introl eq_refl)). apply IH. intros y Hy. apply H. right. exact Hy.
Qed.

(** A new phone number: the row is inserted with the next id, then the
    welcome message is sent; the answer reports the send's [success]. *)
Lemma create_waiting_list_item_fresh cfg api item w :
  (forall r, In r (waiting_list w) -> wl_phone_number r <> Main.phone_number item) ->
  let row := mk_wl_row (Main.next_id (waiting_list w)) (Main.username item)
               (Main.phone_number item) in
  let req := gateway_request cfg
               (text_payload cfg (Main.phone_number item)
                  (Main.welcome_message (Main.username item))) in
  Main.create_waiting_list_item cfg api item w =
  (Ok (JObj [(lit "message", JStr (lit "Added to waiting list"));
             (lit "id", JNum (wl_id row));
             (lit "whatsapp_sent",
              JBool (if truthy_str (NGUMZO_API_KEY cfg)
                     then success (caught (api req)) else false))]),
   {| waiting_list := waiting_list w ++ [row];
      whatsapp_messages := whatsapp_messages w;
      trace := trace w ++ ServiceCall "send_message" ::
                 (if truthy_str (NGUMZO_API_KEY cfg) then [ApiCall req] else []) |}).
Proof.
  intros Hfresh row req.
  assert (Hf : find (fun r => pystr_eqb (wl_phone_number r) (Main.phone_number item))
                 (waiting_list w) = None).
  { apply find_none_of. intros r Hr.
    destruct (pystr_eqb (wl_phone_number r) (Main.phone_number item)) eqn:E; [|reflexivity].
    exfalso. apply (Hfresh r Hr), pystr_eqb_eq, E. }
  unfold Main.create_waiting_list_item, try_except, bind,
    Main.query_waiting_list_first.
  rewrite Hf. unfold Main.add_waiting_list. cbn beta iota zeta.
  rewrite send_message_run.
  destruct (truthy_str (NGUMZO_API_KEY cfg)); reflexivity.
Qed.

Lemma startswith_prefix (p s : pystr) : startswith (p ++ s) p = true.
Proof.
  induction p as [|c p IH]; [destruct s; reflexivity|].
  simpl. rewrite Z.eqb_refl, IH. reflexivity.
Qed.

Lemma nine_decimals_tail (d : pystr) :
  List.length d = 9%nat -> (forall c, In c d -> isdecimal c = true) ->
  Nat.eqb (List.length (firstn 9 d)) 9 && forallb isdecimal (firstn 9 d) &&
  end_anchor (skipn 9 d) = true.
Proof.
  intros Hl Hd.
  rewrite firstn_all2 by lia. rewrite skipn_all2 by lia. rewrite Hl.
  rewrite (proj2 (forallb_forall isdecimal d) (fun c Hc => Hd c Hc)). reflexivity.
Qed.

Lemma local_format_matches (d : pystr) :
  List.length d = 9%nat -> (forall c, In c d -> isdecimal c = true) ->
  phone_pattern_matches (lit "0" ++ d) = true.
Proof.
  intros Hl Hd. unfold phone_pattern_matches.
  rewrite startswith_prefix.
  change (startswith (lit "0" ++ d) (lit "254")) with false.
  change (startswith (lit "0" ++ d) (lit "+254")) with false.
  cbn iota beta. change (skipn 1 (lit "0" ++ d)) with d.
  apply nine_decimals_tail; assumption.
Qed.

Lemma international_format_matches (d : pystr) :
  List.length d = 9%nat -> (forall c, In c d -> isdecimal c = true) ->
  phone_pattern_matches (lit "+254" ++ d) = true.
Proof.
  intros Hl Hd. unfold phone_pattern_matches.
  rewrite startswith_prefix.
  change (startswith (lit "+254" ++ d) (lit "254")) with false.
  cbn iota beta. change (skipn 4 (lit "+254" ++ d)) with d.
  apply nine_decimals_tail; assumption.
Qed.

End ExtraFacts.

Import ExtraFacts.

(** ** Further properties of the code *)

(** The normalizer's result always starts with ['+'] and contains nothing but
    ['+'] and [str.isdigit] characters; an input without digits yields ["+"]. *)
Theorem Extra_normalize_output_shape (x : pystr) :
  (exists t, _normalize_phone x = plus :: t /\
             forall c, In c t -> isdigit c = true \/ c = plus) /\
  _normalize_phone (filter (fun c => negb (isdigit c || (c =? plus))) x) = [plus].
Proof.
  split.
  - destruct (normalize_shape x) as (t & Ht & Hk). exists t. split; [exact Ht|].
    intros c Hc. specialize (Hk c Hc). unfold keep in Hk.
    apply orb_true_iff in Hk as [H|H]; [left; exact H | right; apply Z.eqb_eq, H].
  - rewrite normalize_unfold.
    assert (E : filter keep (strip (filter (fun c => negb (isdigit c || (c =? plus))) x)) = []).
    { assert (Hk : forall c, In c (strip (filter (fun c => negb (isdigit c || (c =? plus))) x)) ->
                             keep c = false).
      { intros c Hc. apply strip_incl, filter_In in Hc as [_ Hc].
        unfold keep. destruct (isdigit c || (c =? plus)); [discriminate|reflexivity]. }
      revert Hk. generalize (strip (filter (fun c => negb (isdigit c || (c =? plus))) x)) as l.
      induction l as [|c l IH]; intros Hk; [reflexivity|]. simpl.
      rewrite (Hk c (or_introl eq_refl)). apply IH. intros c' Hc'. apply Hk. right. exact Hc'. }
    rewrite E. reflexivity.
Qed.

(** A phone number accepted by [validate_phone] (even with the final newline
    that [$] allows) is a prefix ["254"], ["+254"] or ["0"], nine decimal digits
    [d] and at most that newline, and it normalizes to ["+254" ++ d]. *)
Theorem Extra_validated_phone_normalizes (v : pystr)
  (Hvalid : validate_phone v = Ok v) :
  exists p d t, In p [lit "254"; lit "+254"; lit "0"] /\ v = p ++ d ++ t /\
    (t = [] \/ t = [10]) /\ List.length d = 9%nat /\
    (forall c, In c d -> isdecimal c = true) /\
    _normalize_phone v = lit "+254" ++ d.
Proof.
  assert (Hm : phone_pattern_matches v = true).
  { unfold validate_phone in Hvalid.
    destruct (phone_pattern_matches v); [reflexivity | discriminate]. }
  destruct (validated_phone_normalizes v Hm) as (p & d & t & Hp & Hv & Ht & Hrest).
  exists p, d, t. split; [exact Hp|]. split; [exact Hv|]. split; [|exact Hrest].
  destruct t as [|c [|c' t]]; [left; reflexivity| |discriminate].
  right. unfold end_anchor in Ht. apply Z.eqb_eq in Ht. subst c. reflexivity.
Qed.

Lemma Extra_validated_phone_normalizes_witness :
  validate_phone (lit "0712345678" ++ [10]) = Ok (lit "0712345678" ++ [10]) /\
  exists p d t, In p [lit "254"; lit "+254"; lit "0"] /\
    lit "0712345678" ++ [10] = p ++ d ++ t /\ (t = [] \/ t = [10]) /\
    List.length d = 9%nat /\ (forall c, In c d -> isdecimal c = true) /\
    _normalize_phone (lit "0712345678" ++ [10]) = lit "+254" ++ d.
Proof.
  assert (H : validate_phone (lit "0712345678" ++ [10]) = Ok (lit "0712345678" ++ [10]))
    by reflexivity.
  split; [exact H|]. exact (Extra_validated_phone_normalizes _ H).
Defined.

(** A username accepted by [validate_username] has only ASCII letters,
    whitespace and hyphens, and 2 to 50 characters, or 51 when the last one
    is a newline. *)
Theorem Extra_username_validator_bounds (v : pystr)
  (Hvalid : validate_username v = Ok v) :
  (2 <= List.length v <= 51)%nat /\ forallb username_char v = true /\
  (List.length v = 51%nat -> last v 0 = 10).
Proof.
  apply username_accepted_shape.
  unfold validate_username in Hvalid.
  destruct (username_pattern_matches v); [reflexivity | discriminate].
Qed.

Definition fifty_a_newline : pystr := repeat 97 50 ++ [10].

Lemma Extra_username_validator_bounds_witness :
  validate_username fifty_a_newline = Ok fifty_a_newline /\
  List.length fifty_a_newline = 51%nat /\
  forallb username_char fifty_a_newline = true.
Proof.
  assert (H : validate_username fifty_a_newline = Ok fifty_a_newline)
    by (vm_compute; reflexivity).
  split; [exact H|]. split; [reflexivity|].
  exact (proj1 (proj2 (Extra_username_validator_bounds _ H))).
Defined.

(** A new phone number is inserted as one row with the next id before the
    welcome message is sent to it, and the row stays whatever the send gives;
    the answer's ["whatsapp_sent"] is the send's [success]. *)
Theorem Extra_create_new_entry
  (cfg : config) (api : api_request -> res envelope)
  (item : Main.WaitingListCreate) (w : world)
  (Hfresh : forall r, In r (waiting_list w) ->
                      wl_phone_number r <> Main.phone_number item) :
  let row := mk_wl_row (Main.next_id (waiting_list w)) (Main.username item)
               (Main.phone_number item) in
  let req := gateway_request cfg
               (text_payload cfg (Main.phone_number item)
                  (Main.welcome_message (Main.username item))) in
  waiting_list (snd (Main.create_waiting_list_item cfg api item w)) =
    waiting_list w ++ [row] /\
  fst (Main.create_waiting_list_item cfg api item w) =
    Ok (JObj [(lit "message", JStr (lit "Added to waiting list"));
              (lit "id", JNum (wl_id row));
              (lit "whatsapp_sent",
               JBool (if truthy_str (NGUMZO_API_KEY cfg)
                      then success (caught (api req)) else false))]) /\
  trace (snd (Main.create_waiting_list_item cfg api item w)) =
    trace w ++ ServiceCall "send_message" ::
      (if truthy_str (NGUMZO_API_KEY cfg) then [ApiCall req] else []) /\
  json_field (req_json req) (lit "to") =
    Some (JStr (_normalize_phone (Main.phone_number item))).
Proof.
  intros row req.
  rewrite (create_waiting_list_item_fresh cfg api item w Hfresh).
  repeat split; reflexivity.
Qed.

Definition gateway_cfg : config :=
  mk_config (Some (lit "key")) (lit "https://ngumzo.com/v1") (Some (lit "AISHA")) None.

Definition failing_gateway (r : api_request) : res envelope :=
  Ok (failure (lit "HTTP 500")).

Definition new_item : Main.WaitingListCreate :=
  Main.mk_WaitingListCreate (lit "Amina Otieno") (lit "0712345678").

Lemma Extra_create_new_entry_witness :
  (forall r, In r (waiting_list (mk_world [] [] [])) ->
             wl_phone_number r <> Main.phone_number new_item) /\
  waiting_list (snd (Main.create_waiting_list_item gateway_cfg failing_gateway
                       new_item (mk_world [] [] []))) =
    [mk_wl_row 1 (lit "Amina Otieno") (lit "0712345678")].
Proof.
  assert (H : forall r, In r (waiting_list (mk_world [] [] [])) ->
                        wl_phone_number r <> Main.phone_number new_item)
    by (intros r []).
  split; [exact H|].
  exact (proj1 (Extra_create_new_entry gateway_cfg failing_gateway
                  new_item (mk_world [] [] []) H)).
Defined.

(** The duplicate check compares the raw strings: with a row for ["0" ++ d]
    and none for ["+254" ++ d], adding ["+254" ++ d] stores a second row for
    the same subscriber, although both forms pass [validate_phone] and
    normalize to the same number. *)
Theorem Extra_duplicate_check_compares_raw_strings
  (cfg : config) (api : api_request -> res envelope) (w : world)
  (name d : pystr)
  (Hlen : List.length d = 9%nat) (Hdec : forall c, In c d -> isdecimal c = true)
  (Hlocal : exists r, In r (waiting_list w) /\ wl_phone_number r = lit "0" ++ d)
  (Hintl : forall r, In r (waiting_list w) -> wl_phone_number r <> lit "+254" ++ d) :
  validate_phone (lit "0" ++ d) = Ok (lit "0" ++ d) /\
  validate_phone (lit "+254" ++ d) = Ok (lit "+254" ++ d) /\
  waiting_list (snd (Main.create_waiting_list_item cfg api
                       (Main.mk_WaitingListCreate name (lit "+254" ++ d)) w)) =
    waiting_list w ++ [mk_wl_row (Main.next_id (waiting_list w)) name (lit "+254" ++ d)] /\
  exists r1 r2,
    In r1 (waiting_list (snd (Main.create_waiting_list_item cfg api
                                (Main.mk_WaitingListCreate name (lit "+254" ++ d)) w))) /\
    In r2 (waiting_list (snd (Main.create_waiting_list_item cfg api
                                (Main.mk_WaitingListCreate name (lit "+254" ++ d)) w))) /\
    wl_phone_number r1 <> wl_phone_number r2 /\
    _normalize_phone (wl_phone_number r1) = _normalize_phone (wl_phone_number r2).
Proof.
  unfold validate_phone.
  rewrite (local_format_matches d Hlen Hdec), (international_format_matches d Hlen Hdec).
  split; [reflexivity|]. split; [reflexivity|].
  rewrite (create_waiting_list_item_fresh cfg api
             (Main.mk_WaitingListCreate name (lit "+254" ++ d)) w Hintl).
  cbn [snd waiting_list Main.username Main.phone_number].
  split; [reflexivity|].
  destruct Hlocal as (r1 & Hin & Hp).
  exists r1, (mk_wl_row (Main.next_id (waiting_list w)) name (lit "+254" ++ d)).
  split; [apply in_or_app; left; exact Hin|].
  split; [apply in_or_app; right; left; reflexivity|].
  cbn [wl_phone_number]. rewrite Hp. split.
  - intros E. injection E. discriminate.
  - pose proof (normalize_validated_shape (lit "0") d [] ltac:(simpl; tauto) Hdec eq_refl) as H0.
    pose proof (normalize_validated_shape (lit "+254") d [] ltac:(simpl; tauto) Hdec eq_refl) as H1.
    rewrite app_nil_r in H0, H1. rewrite H0, H1. reflexivity.
Qed.

Definition local_row : wl_row := mk_wl_row 1 (lit "Amina") (lit "0712345678").

Lemma Extra_duplicate_check_compares_raw_strings_witness :
  waiting_list (snd (Main.create_waiting_list_item gateway_cfg failing_gateway
                       (Main.mk_WaitingListCreate (lit "Amina") (lit "+254712345678"))
                       (mk_world [local_row] [] []))) =
    [local_row; mk_wl_row 2 (lit "Amina") (lit "+254712345678")].
Proof.
  assert (Hlen : List.length (lit "712345678") = 9%nat) by reflexivity.
  assert (Hdec : forall c, In c (lit "712345678") -> isdecimal c = true).
  { intros c Hc. simpl in Hc.
    repeat (destruct Hc as [<- | Hc]; [reflexivity|]). destruct Hc. }
  assert (Hlocal : exists r, In r (waiting_list (mk_world [local_row] [] [])) /\
                             wl_phone_number r = lit "0" ++ lit "712345678")
    by (exists local_row; split; [left|]; reflexivity).
  assert (Hintl : forall r, In r (waiting_list (mk_world [local_row] [] [])) ->
                            wl_phone_number r <> lit "+254" ++ lit "712345678").
  { intros r [<- | []]. discriminate. }
  exact (proj1 (proj2 (proj2 (Extra_duplicate_check_compares_raw_strings gateway_cfg
           failing_gateway (mk_world [local_row] [] []) (lit "Amina") (lit "712345678")
           Hlen Hdec Hlocal Hintl)))).
Defined.




(** When the gateway reports success but the message id cannot be extracted
    from its data, each send handler that reaches the gateway answers HTTP
    500 with [str] of the extraction error and stores no message row,
    although the message went out. *)
Theorem Extra_send_handlers_extraction_error_is_500
  (cfg : config) (api : api_request -> res envelope) (env : envelope)
  (e : pyexc) (w : world)
  (Hapi : forall r, api r = Ok env) (Hs : success env = true)
  (Hx : Main.extract_message_id env = Exc e) :
  (truthy_str (NGUMZO_API_KEY cfg) = true -> forall rq,
     fst (Main.send_whatsapp_text cfg api rq w) = Exc (HTTPException 500 (exc_str e)) /\
     whatsapp_messages (snd (Main.send_whatsapp_text cfg api rq w)) = whatsapp_messages w) /\
  (forall rq,
     fst (Main.send_whatsapp_template cfg api rq w) = Exc (HTTPException 500 (exc_str e)) /\
     whatsapp_messages (snd (Main.send_whatsapp_template cfg api rq w)) = whatsapp_messages w) /\
  (forall rq,
     fst (Main.send_whatsapp_media cfg api rq w) = Exc (HTTPException 500 (exc_str e)) /\
     whatsapp_messages (snd (Main.send_whatsapp_media cfg api rq w)) = whatsapp_messages w).
Proof.
  split; [intros Hkey|split]; intros rq;
    unfold Main.send_whatsapp_text, Main.send_whatsapp_template,
      Main.send_whatsapp_media, try_except, bind;
    rewrite ?send_message_run, ?send_template_message_run,
      ?send_media_message_run, ?Hkey, Hapi;
    unfold caught, Main.store_if_success; rewrite Hs;
    unfold bind, lift; rewrite Hx; split; reflexivity.
Qed.

Definition malformed_gateway (r : api_request) : res envelope :=
  Ok (mk_envelope true (Some (JObj [(lit "messages", JArr [JStr (lit "wamid.1")])])) None).

Lemma Extra_send_handlers_extraction_error_is_500_witness :
  fst (Main.send_whatsapp_media gateway_cfg malformed_gateway
         (Main.mk_WhatsAppMediaMessage (lit "0712345678") (lit "https://x/a.png")
            (lit "image") None) (mk_world [] [] [])) =
    Exc (HTTPException 500 (lit "'str' object has no attribute 'get'")).
Proof.
  exact (proj1 (proj2 (proj2 (Extra_send_handlers_extraction_error_is_500 gateway_cfg
    malformed_gateway
    (mk_envelope true (Some (JObj [(lit "messages", JArr [JStr (lit "wamid.1")])])) None)
    (AttributeError (lit "'str' object has no attribute 'get'")) (mk_world [] [] [])
    (fun r => eq_refl) eq_refl eq_refl))
    (Main.mk_WhatsAppMediaMessage (lit "0712345678") (lit "https://x/a.png")
       (lit "image") None))).
Defined.

(** When the gateway reports success with a message id that is a dict or a
    list, the [String] column cannot take it: each send handler that reaches
    the gateway answers HTTP 500 and stores no message row. *)
Theorem Extra_send_handlers_unbindable_id_is_500
  (cfg : config) (api : api_request -> res envelope) (env : envelope)
  (ext : json) (w : world)
  (Hapi : forall r, api r = Ok env) (Hs : success env = true)
  (Hx : Main.extract_message_id env = Ok ext)
  (Hext : match ext with JObj _ | JArr _ => True | _ => False end) :
  (truthy_str (NGUMZO_API_KEY cfg) = true -> forall rq, exists detail,
     fst (Main.send_whatsapp_text cfg api rq w) = Exc (HTTPException 500 detail) /\
     whatsapp_messages (snd (Main.send_whatsapp_text cfg api rq w)) = whatsapp_messages w) /\
  (forall rq, exists detail,
     fst (Main.send_whatsapp_template cfg api rq w) = Exc (HTTPException 500 detail) /\
     whatsapp_messages (snd (Main.send_whatsapp_template cfg api rq w)) = whatsapp_messages w) /\
  (forall rq, exists detail,
     fst (Main.send_whatsapp_media cfg api rq w) = Exc (HTTPException 500 detail) /\
     whatsapp_messages (snd (Main.send_whatsapp_media cfg api rq w)) = whatsapp_messages w).
Proof.
  split; [intros Hkey|split]; intros rq;
    unfold Main.send_whatsapp_text, Main.send_whatsapp_template,
      Main.send_whatsapp_media, try_except, bind;
    rewrite ?send_message_run, ?send_template_message_run,
      ?send_media_message_run, ?Hkey, Hapi;
    unfold caught, Main.store_if_success; rewrite Hs;
    unfold bind, lift; rewrite Hx; unfold Main.add_whatsapp_message; cbn [m_external_message_id];
    (destruct ext; try destruct Hext); eexists; split; reflexivity.
Qed.

Definition dict_id_gateway (r : api_request) : res envelope :=
  Ok (mk_envelope true
        (Some (JObj [(lit "messages", JArr [JObj [(lit "id", JObj [])]])])) None).

Lemma Extra_send_handlers_unbindable_id_is_500_witness :
  exists detail,
    fst (Main.send_whatsapp_template gateway_cfg dict_id_gateway
           (Main.mk_WhatsAppTemplateMessage (lit "0712345678") (lit "welcome") None)
           (mk_world [] [] [])) = Exc (HTTPException 500 detail) /\
    whatsapp_messages (snd (Main.send_whatsapp_template gateway_cfg dict_id_gateway
           (Main.mk_WhatsAppTemplateMessage (lit "0712345678") (lit "welcome") None)
           (mk_world [] [] []))) = [].
Proof.
  exact (proj1 (proj2 (Extra_send_handlers_unbindable_id_is_500 gateway_cfg dict_id_gateway
    (mk_envelope true
       (Some (JObj [(lit "messages", JArr [JObj [(lit "id", JObj [])]])])) None)
    (JObj []) (mk_world [] [] []) (fun r => eq_refl) eq_refl eq_refl I))
    (Main.mk_WhatsAppTemplateMessage (lit "0712345678") (lit "welcome") None)).
Defined.

(** When the gateway answers without success or raises, each send handler
    returns an envelope with [success = False] and stores nothing. *)
Theorem Extra_send_handlers_no_store_on_failure
  (cfg : config) (api : api_request -> res envelope) (w : world)
  (Hapi : forall r, match api r with Ok env => success env = false | Exc _ => True end) :
  (forall rq, exists env,
     fst (Main.send_whatsapp_text cfg api rq w) = Ok env /\ success env = false /\
     whatsapp_messages (snd (Main.send_whatsapp_text cfg api rq w)) = whatsapp_messages w /\
     waiting_list (snd (Main.send_whatsapp_text cfg api rq w)) = waiting_list w) /\
  (forall rq, exists env,
     fst (Main.send_whatsapp_template cfg api rq w) = Ok env /\ success env = false /\
     whatsapp_messages (snd (Main.send_whatsapp_template cfg api rq w)) = whatsapp_messages w /\
     waiting_list (snd (Main.send_whatsapp_template cfg api rq w)) = waiting_list w) /\
  (forall rq, exists env,
     fst (Main.send_whatsapp_media cfg api rq w) = Ok env /\ success env = false /\
     whatsapp_messages (snd (Main.send_whatsapp_media cfg api rq w)) = whatsapp_messages w /\
     waiting_list (snd (Main.send_whatsapp_media cfg api rq w)) = waiting_list w).
Proof.
  assert (Hc : forall r, success (caught (api r)) = false).
  { intros r. specialize (Hapi r). unfold caught.
    destruct (api r); [exact Hapi | reflexivity]. }
  split; [|split]; intros rq;
    unfold Main.send_whatsapp_text, Main.send_whatsapp_template,
      Main.send_whatsapp_media, try_except, bind;
    rewrite ?send_message_run, ?send_template_message_run, ?send_media_message_run.
  - destruct (truthy_str (NGUMZO_API_KEY cfg)).
    + rewrite store_if_success_failure by apply Hc.
      eexists; split; [reflexivity|]. split; [apply Hc|]. split; reflexivity.
    + rewrite store_if_success_failure by reflexivity.
      eexists; split; [reflexivity|]. split; [reflexivity|]. split; reflexivity.
  - rewrite store_if_success_failure by apply Hc.
    eexists; split; [reflexivity|]. split; [apply Hc|]. split; reflexivity.
  - rewrite store_if_success_failure by apply Hc.
    eexists; split; [reflexivity|]. split; [apply Hc|]. split; reflexivity.
Qed.

Lemma Extra_send_handlers_no_store_on_failure_witness :
  whatsapp_messages (snd (Main.send_whatsapp_template gateway_cfg failing_gateway
     (Main.mk_WhatsAppTemplateMessage (lit "0712345678") (lit "welcome") None)
     (mk_world [] [] []))) = [].
Proof.
  assert (H : forall r, match failing_gateway r with
                        | Ok env => success env = false | Exc _ => True end)
    by (intros r; reflexivity).
  destruct (proj1 (proj2 (Extra_send_handlers_no_store_on_failure gateway_cfg
     failing_gateway (mk_world [] [] []) H))
     (Main.mk_WhatsAppTemplateMessage (lit "0712345678") (lit "welcome") None))
    as (env & _ & _ & Hm & _).
  exact Hm.
Defined.

(** Each gateway operation makes at most one API call: a POST to
    [NGUMZO_API_URL + "/send-message"] with the JSON content-type header, a
    30 second timeout, the configured key and sender, and ["to"] the
    normalized number; [send_message] makes it exactly when the key is set. *)
Theorem Extra_gateway_request_shape
  (cfg : config) (api : api_request -> res envelope) (w : world) :
  (forall p msg mt, exists r,
     trace (snd (WhatsAppService.send_message cfg api p msg mt w)) =
       trace w ++ ServiceCall "send_message" ::
         (if truthy_str (NGUMZO_API_KEY cfg) then [ApiCall r] else []) /\
     req_url r = NGUMZO_API_URL cfg ++ lit "/send-message" /\
     req_method r = lit "POST" /\ req_headers r = WhatsAppService.json_headers /\
     req_timeout r = Some 30 /\
     json_field (req_json r) (lit "api_key") = Some (jopt (NGUMZO_API_KEY cfg)) /\
     json_field (req_json r) (lit "sender_id") = Some (jopt (NGUMZO_SENDER_ID cfg)) /\
     json_field (req_json r) (lit "to") = Some (JStr (_normalize_phone p))) /\
  (forall p tn params, exists r,
     trace (snd (WhatsAppService.send_template_message cfg api p tn params w)) =
       trace w ++ [ServiceCall "send_template_message"; ApiCall r] /\
     req_url r = NGUMZO_API_URL cfg ++ lit "/send-message" /\
     req_method r = lit "POST" /\ req_headers r = WhatsAppService.json_headers /\
     req_timeout r = Some 30 /\
     json_field (req_json r) (lit "api_key") = Some (jopt (NGUMZO_API_KEY cfg)) /\
     json_field (req_json r) (lit "sender_id") = Some (jopt (NGUMZO_SENDER_ID cfg)) /\
     json_field (req_json r) (lit "to") = Some (JStr (_normalize_phone p))) /\
  (forall p mu mty caption, exists r,
     trace (snd (WhatsAppService.send_media_message cfg api p mu mty caption w)) =
       trace w ++ [ServiceCall "send_media_message"; ApiCall r] /\
     req_url r = NGUMZO_API_URL cfg ++ lit "/send-message" /\
     req_method r = lit "POST" /\ req_headers r = WhatsAppService.json_headers /\
     req_timeout r = Some 30 /\
     json_field (req_json r) (lit "api_key") = Some (jopt (NGUMZO_API_KEY cfg)) /\
     json_field (req_json r) (lit "sender_id") = Some (jopt (NGUMZO_SENDER_ID cfg)) /\
     json_field (req_json r) (lit "to") = Some (JStr (_normalize_phone p))).
Proof.
  split; [|split].
  - intros p msg mt. exists (gateway_request cfg (text_payload cfg p msg)).
    rewrite send_message_run.
    destruct (truthy_str (NGUMZO_API_KEY cfg)); repeat split.
  - intros p tn params. exists (gateway_request cfg (template_payload cfg p tn params)).
    rewrite send_template_message_run. repeat split.
  - intros p mu mty caption.
    exists (gateway_request cfg (media_payload cfg p mu mty caption)).
    rewrite send_media_message_run. repeat split.
Qed.

(** An API key set to the empty string counts as missing: [send_message]
    returns the missing-key failure and makes no API call. *)
Theorem Extra_empty_api_key_is_missing
  (url : pystr) (sender gkey : option pystr) (api : api_request -> res envelope)
  (p msg mt : pystr) (w : world) :
  WhatsAppService.send_message (mk_config (Some []) url sender gkey) api p msg mt w =
    (Ok (failure (lit "NGUMZO_API_KEY not found in environment variables")),
     with_trace w [ServiceCall "send_message"]).
Proof. rewrite send_message_run. reflexivity. Qed.

(** The Gemini handler turns an envelope without success into HTTP 500 with
    the envelope's error, or ["Unknown error"] when it has none, and lets an
    exception of [call_api] through unchanged. *)
Theorem Extra_gemini_failure_is_500
  (cfg : config) (api : api_request -> res envelope) (prompt : pystr) (w : world) :
  (forall env, api (Main.gemini_request cfg prompt) = Ok env -> success env = false ->
     fst (Main.get_gemini_response cfg api prompt w) =
       Exc (HTTPException 500 (match error env with
                               | Some e => e | None => lit "Unknown error" end))) /\
  (forall e, api (Main.gemini_request cfg prompt) = Exc e ->
     fst (Main.get_gemini_response cfg api prompt w) = Exc e).
Proof.
  split.
  - intros env Henv Hs. rewrite get_gemini_response_run, Henv, Hs. reflexivity.
  - intros e He. rewrite get_gemini_response_run, He. reflexivity.
Qed.

Definition gemini_down (r : api_request) : res envelope :=
  Ok (mk_envelope false None None).

Lemma Extra_gemini_failure_is_500_witness :
  fst (Main.get_gemini_response gateway_cfg gemini_down (lit "hi") (mk_world [] [] [])) =
    Exc (HTTPException 500 (lit "Unknown error")).
Proof.
  exact (proj1 (Extra_gemini_failure_is_500 gateway_cfg gemini_down (lit "hi")
           (mk_world [] [] [])) (mk_envelope false None None) eq_refl eq_refl).
Defined.

(** With [GEMINI_API_KEY] unset the Gemini request is still sent, to a URL
    ending in ["?key=None"]. *)
Theorem Extra_gemini_unset_key_url
  (cfg : config) (api : api_request -> res envelope) (prompt : pystr) (w : world)
  (Hunset : GEMINI_API_KEY cfg = None) :
  req_url (Main.gemini_request cfg prompt) = Main.GEMINI_API_URL ++ lit "?key=None" /\
  trace (snd (Main.get_gemini_response cfg api prompt w)) =
    trace w ++ [ApiCall (Main.gemini_request cfg prompt)].
Proof.
  split.
  - unfold Main.gemini_request. cbn [req_url]. rewrite Hunset. reflexivity.
  - rewrite get_gemini_response_run.
    destruct (api (Main.gemini_request cfg prompt)) as [env|e]; [|reflexivity].
    destruct (negb (success env)); [reflexivity|].
    destruct (data env) as [d|]; [|reflexivity].
    destruct (Main.extract_text d); reflexivity.
Qed.

Lemma Extra_gemini_unset_key_url_witness :
  req_url (Main.gemini_request gateway_cfg (lit "hi")) =
    Main.GEMINI_API_URL ++ lit "?key=None".
Proof.
  exact (proj1 (Extra_gemini_unset_key_url gateway_cfg gemini_down (lit "hi")
           (mk_world [] [] []) eq_refl)).
Defined.
